(** * A chat front-end: conversation store and response generator

    A shallow embedding of [main.py]: the [ChatBot] class (the response
    generator), the [ChatInterface] class (the conversation store, its JSON
    file and the page handler) and [main].

    Conventions of the embedding.
    - Python text is a [string]; each character stands for the code point
      of the same number (0..255).
    - A turn is the dict [{"role": r, "content": c}] the program builds; the
      store is a Python list of such dicts, here a [list Turn].
    - Python exceptions are values of [exn]; a computation either returns,
      raises, or leaves the data model (the file held JSON that is not a
      sequence of turns).
    - The file system is ideal: [chat_history.json] is absent or holds a
      text, and reading, writing and removing it always succeed. *)

From Stdlib Require Import String Ascii List Bool Arith Lia DecimalString.
Import ListNotations.
Local Open Scope list_scope.
Local Open Scope string_scope.
Local Open Scope nat_scope.

(** ** Python text *)

Definition chr (n : nat) : ascii := ascii_of_nat n.
Definition ord (c : ascii) : nat := nat_of_ascii c.

Definition quote : ascii := chr 34.
Definition backslash : ascii := chr 92.
Definition newline : ascii := chr 10.

(** [sep.join(items)]: the items with [sep] between neighbours, built left
    to right. *)
Definition join (sep : string) (items : list string) : string :=
  match items with
  | [] => ""
  | first :: others => fold_left (fun acc item => acc ++ sep ++ item) others first
  end.

(** [str(n)] for a natural number. *)
Definition str_nat (n : nat) : string := NilZero.string_of_uint (Nat.to_uint n).

(** ** Turns *)

Record Turn := { role : string; content : string }.

(** The dict literals of the source. *)
Definition user_turn (text : string) : Turn := {| role := "user"; content := text |}.
Definition bot_turn (text : string) : Turn := {| role := "bot"; content := text |}.

(** ** Exceptions *)

(** [Error cls msg] is an instance of a class under [Exception], with
    [str(e) = msg]; [Exit cls] is an instance of a class under
    [BaseException] only ([KeyboardInterrupt], [SystemExit], streamlit's
    [RerunException]). *)
Inductive exn :=
| Error (cls : string) (msg : string)
| Exit (cls : string).

Definition JSONDecodeError (msg : string) : exn := Error "JSONDecodeError" msg.
Definition RerunException : exn := Exit "RerunException".

(** ** The json module, on sequences of turns *)

Module json.

(** *** Encoding ([json.dump] with its defaults: [ensure_ascii=True],
    separators [", "] and [": "]) *)

Definition hexdigit (n : nat) : ascii :=
  if n <? 10 then chr (48 + n) else chr (87 + n).

(** One character of a string, as the encoder writes it. *)
Definition escape_char (c : ascii) : string :=
  let n := ord c in
  if n =? 34 then String backslash (String quote "")
  else if n =? 92 then String backslash (String backslash "")
  else if n =? 10 then String backslash "n"
  else if n =? 13 then String backslash "r"
  else if n =? 9 then String backslash "t"
  else if n =? 8 then String backslash "b"
  else if n =? 12 then String backslash "f"
  else if (n <? 32) || (126 <? n) then
    String backslash
      (String "u" (String "0" (String "0"
         (String (hexdigit (n / 16)) (String (hexdigit (n mod 16)) "")))))
  else String c "".

Fixpoint escape (s : string) : string :=
  match s with
  | EmptyString => ""
  | String c rest => escape_char c ++ escape rest
  end.

Definition encode_basestring_ascii (s : string) : string :=
  String quote (escape s ++ String quote "").

(** The dict of one turn: keys in insertion order, [role] then
    [content]. *)
Definition dump_turn (t : Turn) : string :=
  "{" ++ encode_basestring_ascii "role" ++ ": "
      ++ encode_basestring_ascii (role t) ++ ", "
      ++ encode_basestring_ascii "content" ++ ": "
      ++ encode_basestring_ascii (content t) ++ "}".

Definition dumps (turns : list Turn) : string :=
  "[" ++ join ", " (map dump_turn turns) ++ "]".

(** *** Decoding ([json.load]) *)

Definition is_whitespace (c : ascii) : bool :=
  let n := ord c in
  (n =? 32) || (n =? 9) || (n =? 10) || (n =? 13).

Fixpoint skip_whitespace (s : string) : string :=
  match s with
  | String c rest => if is_whitespace c then skip_whitespace rest else s
  | EmptyString => s
  end.

Definition hexvalue (c : ascii) : option nat :=
  let n := ord c in
  if (48 <=? n) && (n <=? 57) then Some (n - 48)
  else if (97 <=? n) && (n <=? 102) then Some (n - 87)
  else if (65 <=? n) && (n <=? 70) then Some (n - 55)
  else None.

Definition hex4 (a b c d : ascii) : option nat :=
  match hexvalue a, hexvalue b, hexvalue c, hexvalue d with
  | Some x, Some y, Some z, Some w => Some (((x * 16 + y) * 16 + z) * 16 + w)
  | _, _, _, _ => None
  end.

(** The character a one-letter escape stands for. *)
Definition unescape (c : ascii) : option ascii :=
  let n := ord c in
  if n =? 34 then Some quote
  else if n =? 92 then Some backslash
  else if n =? 47 then Some "/"%char
  else if n =? 98 then Some (chr 8)
  else if n =? 102 then Some (chr 12)
  else if n =? 110 then Some (chr 10)
  else if n =? 114 then Some (chr 13)
  else if n =? 116 then Some (chr 9)
  else None.

Definition cons_char (c : ascii) (r : option (string * string))
  : option (string * string) :=
  match r with
  | Some (text, rest) => Some (String c text, rest)
  | None => None
  end.

(** [scanstring s]: [s] is the text after an opening quote; the result is
    the decoded string and the text after the closing quote. [None] when
    the text is no string of this embedding (unterminated, a control
    character, a bad escape, or a code point above 255). *)
Fixpoint scanstring (s : string) : option (string * string) :=
  match s with
  | EmptyString => None
  | String c rest =>
      if ord c =? 34 then Some ("", rest)
      else if ord c =? 92 then
        match rest with
        | EmptyString => None
        | String e rest1 =>
            if ord e =? 117 then
              match rest1 with
              | String h1 (String h2 (String h3 (String h4 rest2))) =>
                  match hex4 h1 h2 h3 h4 with
                  | Some n =>
                      if n <? 256 then cons_char (chr n) (scanstring rest2)
                      else None
                  | None => None
                  end
              | _ => None
              end
            else
              match unescape e with
              | Some ch => cons_char ch (scanstring rest1)
              | None => None
              end
        end
      else if ord c <? 32 then None
      else cons_char c (scanstring rest)
  end.

Definition expect (c : ascii) (s : string) : option string :=
  match s with
  | String c' rest => if ord c' =? ord c then Some rest else None
  | EmptyString => None
  end.

(** A quoted string after optional whitespace. *)
Definition scan_quoted (s : string) : option (string * string) :=
  match expect quote (skip_whitespace s) with
  | Some rest => scanstring rest
  | None => None
  end.

(** [key : value] where the key is [k] and the value is a string. *)
Definition scan_member (k : string) (s : string) : option (string * string) :=
  match scan_quoted s with
  | Some (key, s1) =>
      if String.eqb key k then
        match expect ":" (skip_whitespace s1) with
        | Some s2 => scan_quoted s2
        | None => None
        end
      else None
  | None => None
  end.

(** One turn; [s] is the text after the opening brace. *)
Definition scan_turn (s : string) : option (Turn * string) :=
  match scan_member "role" s with
  | Some (r, s1) =>
      match expect "," (skip_whitespace s1) with
      | Some s2 =>
          match scan_member "content" s2 with
          | Some (c, s3) =>
              match expect "}" (skip_whitespace s3) with
              | Some s4 => Some ({| role := r; content := c |}, s4)
              | None => None
              end
          | None => None
          end
      | None => None
      end
  | None => None
  end.

(** The items of a non-empty array up to its closing bracket; [s] starts
    at the first item. Every item takes at least one character, so
    [String.length s] rounds suffice. *)
Fixpoint scan_items (fuel : nat) (s : string) : option (list Turn * string) :=
  match fuel with
  | O => None
  | S fuel' =>
      match expect "{" s with
      | Some s1 =>
          match scan_turn s1 with
          | Some (t, s2) =>
              match skip_whitespace s2 with
              | String c s3 =>
                  if ord c =? 44 then
                    match scan_items fuel' (skip_whitespace s3) with
                    | Some (ts, s4) => Some (t :: ts, s4)
                    | None => None
                    end
                  else if ord c =? 93 then Some ([t], s3)
                  else None
              | EmptyString => None
              end
          | None => None
          end
      | None => None
      end
  end.

Definition scan_array (s : string) : option (list Turn * string) :=
  match expect "[" (skip_whitespace s) with
  | Some s1 =>
      let s2 := skip_whitespace s1 in
      match expect "]" s2 with
      | Some s3 => Some ([], s3)
      | None => scan_items (String.length s2) s2
      end
  | None => None
  end.

(** A whole document that is an array of turns. *)
Definition scan_turns (s : string) : option (list Turn) :=
  match scan_array s with
  | Some (ts, rest) =>
      match skip_whitespace rest with
      | EmptyString => Some ts
      | String _ _ => None
      end
  | None => None
  end.

(** Where the first character that is not whitespace sits: index, line
    and column as the decoder reports them. *)
Fixpoint first_token (s : string) (pos lineno colno : nat)
  : option ascii * (nat * nat * nat) :=
  match s with
  | EmptyString => (None, (pos, lineno, colno))
  | String c rest =>
      if is_whitespace c then
        if ord c =? 10 then first_token rest (S pos) (S lineno) 1
        else first_token rest (S pos) lineno (S colno)
      else (Some c, (pos, lineno, colno))
  end.

(** Can a JSON value start with this character? *)
Definition starts_value (c : ascii) : bool :=
  let n := ord c in
  (n =? 34) || (n =? 123) || (n =? 91) || (n =? 45)
  || ((48 <=? n) && (n <=? 57))
  || (n =? 116) || (n =? 102) || (n =? 110) || (n =? 78) || (n =? 73).

Definition expecting_value (pos lineno colno : nat) : string :=
  "Expecting value: line " ++ str_nat lineno ++ " column " ++ str_nat colno
    ++ " (char " ++ str_nat pos ++ ")".

Inductive loaded :=
| Turns (turns : list Turn)   (* the document is this list of turn dicts *)
| Invalid (msg : string)      (* json.load raises JSONDecodeError(msg) *)
| Foreign.                    (* neither: outside this embedding *)

(** [json.load] on the text of a file. A document that is an array of
    [{"role": <string>, "content": <string>}] objects is decoded; a text
    in which no JSON value starts is rejected the way the decoder does;
    anything else (other JSON values, other syntax errors) is left out of
    the embedding. *)
Definition loads (s : string) : loaded :=
  match scan_turns s with
  | Some ts => Turns ts
  | None =>
      match first_token s 0 1 1 with
      | (Some c, (pos, lineno, colno)) =>
          if starts_value c then Foreign
          else Invalid (expecting_value pos lineno colno)
      | (None, (pos, lineno, colno)) =>
          Invalid (expecting_value pos lineno colno)
      end
  end.

End json.

(** ** The world of one browser session *)

Inductive avatar := person | robot.

(** What a run does to the page and to the remote API. The spinner and
    the layout containers leave no event. *)
Inductive event :=
| Configure (api_key : string)        (* genai.configure(api_key=...) *)
| GenerateContent (prompt : string)   (* model.generate_content(prompt) *)
| SetPageConfig                       (* st.set_page_config(...) *)
| Title                               (* st.title(...) *)
| StError (msg : string)              (* st.error(msg) *)
| ChatMessage (name : string) (icon : avatar) (body : string).
                                      (* with st.chat_message: st.markdown *)

Record State := {
  history : list Turn;           (* st.session_state.history *)
  chat_history : list Turn;      (* chatbot.chat_history *)
  history_file : option string;  (* chat_history.json as read; None: no file *)
  events : list event            (* oldest first *)
}.

Definition set_history (h : list Turn) (s : State) : State :=
  {| history := h; chat_history := chat_history s;
     history_file := history_file s; events := events s |}.

Definition set_chat_history (h : list Turn) (s : State) : State :=
  {| history := history s; chat_history := h;
     history_file := history_file s; events := events s |}.

Definition set_history_file (f : option string) (s : State) : State :=
  {| history := history s; chat_history := chat_history s;
     history_file := f; events := events s |}.

Definition log (ev : event) (s : State) : State :=
  {| history := history s; chat_history := chat_history s;
     history_file := history_file s; events := (events s ++ [ev])%list |}.

(** ** Computations: state, exceptions *)

Inductive try (A : Type) :=
| Return (a : A)
| Throw (e : exn).
Arguments Return {A} a.
Arguments Throw {A} e.

Inductive outcome (A : Type) :=
| Returns (a : A) (s : State)   (* normal completion *)
| Raises (e : exn) (s : State)  (* an exception leaves the computation *)
| Unmodelled.                   (* the file held JSON that is no list of turns *)
Arguments Returns {A} a s.
Arguments Raises {A} e s.
Arguments Unmodelled {A}.

Definition M (A : Type) : Type := State -> outcome A.

Definition ret {A} (a : A) : M A := fun s => Returns a s.

Definition bind {A B} (m : M A) (k : A -> M B) : M B :=
  fun s =>
    match m s with
    | Returns a s' => k a s'
    | Raises e s' => Raises e s'
    | Unmodelled => Unmodelled
    end.

Declare Scope py_scope.
Delimit Scope py_scope with py.
Notation "x <- m ;; k" := (bind m (fun x => k))
  (at level 61, m at next level, right associativity) : py_scope.
Notation "m ;; k" := (bind m (fun _ => k))
  (at level 61, right associativity) : py_scope.
Local Open Scope py_scope.

Definition raise {A} (e : exn) : M A := fun s => Raises e s.
Definition gets {A} (f : State -> A) : M A := fun s => Returns (f s) s.
Definition modify (f : State -> State) : M unit := fun s => Returns tt (f s).
Definition emit (ev : event) : M unit := modify (log ev).
Definition lift {A} (r : try A) : M A :=
  match r with
  | Return a => ret a
  | Throw e => raise e
  end.

(** [try: body except Exception as e: handler(str(e))]. What the body did to
    the state before it raised stays done; an exception that is not under
    [Exception] passes through. *)
Definition try_except_Exception {A} (body : M A) (handler : string -> M A) : M A :=
  fun s =>
    match body s with
    | Raises (Error _ msg) s' => handler msg s'
    | other => other
    end.

Fixpoint for_each {A} (items : list A) (body : A -> M unit) : M unit :=
  match items with
  | [] => ret tt
  | x :: rest => body x ;; for_each rest body
  end.

(** Truth value of a [str]: the empty string is false. *)
Definition truthy (x : string) : bool :=
  match x with
  | EmptyString => false
  | String _ _ => true
  end.

(** ** The remote model *)

(** A response object: [response.text] gives the text or raises. *)
Record Response := { text : try string }.

(** ** The program *)

Section Program.

(** [genai.GenerativeModel('gemini-1.5-pro').generate_content]: for each
    prompt, a response or an exception. *)
Variable gemini : string -> try Response.

Definition generate_content (prompt : string) : M Response :=
  emit (GenerateContent prompt) ;; lift (gemini prompt).

(** *** class ChatBot *)

Definition ChatBot_init (api_key : string) : M unit :=
  emit (Configure api_key) ;;
  modify (set_chat_history []).

(** [f"{msg['role']}: {msg['content']}"] *)
Definition format_turn (msg : Turn) : string :=
  role msg ++ ": " ++ content msg.

Definition conversation_of (h : list Turn) : string :=
  join (String newline "") (map format_turn h).

Definition get_response (user_input : string) : M string :=
  try_except_Exception
    (modify (fun s => set_chat_history (chat_history s ++ [user_turn user_input]) s) ;;
     h <- gets chat_history ;;
     let conversation := conversation_of h in
     response <- generate_content conversation ;;
     bot_response <- lift (text response) ;;
     modify (fun s => set_chat_history (chat_history s ++ [bot_turn bot_response]) s) ;;
     ret bot_response)
    (fun e => ret ("Error: " ++ e)).

Definition get_history : M (list Turn) := gets chat_history.

(** *** class ChatInterface *)

Definition os_path_exists : M bool :=
  gets (fun s => match history_file s with Some _ => true | None => false end).

Definition os_remove : M unit := modify (set_history_file None).

(** [open(self.history_file, "r")], read whole. *)
Definition open_read : M string :=
  fun s =>
    match history_file s with
    | Some doc => Returns doc s
    | None =>
        Raises (Error "FileNotFoundError"
                  "[Errno 2] No such file or directory: 'chat_history.json'") s
    end.

(** [json.load(f)] on the text of the file. *)
Definition json_load (doc : string) : M (list Turn) :=
  match json.loads doc with
  | json.Turns ts => ret ts
  | json.Invalid msg => raise (JSONDecodeError msg)
  | json.Foreign => fun _ => Unmodelled
  end.

(** [json.dump(obj, f)] on the file opened with mode ["w"]. *)
Definition json_dump (obj : list Turn) : M unit :=
  modify (set_history_file (Some (json.dumps obj))).

Definition load_history : M unit :=
  present <- os_path_exists ;;
  if (present : bool) then
    doc <- open_read ;;
    loaded <- json_load doc ;;
    modify (set_history loaded) ;;
    h <- gets history ;;
    modify (set_chat_history h)
  else
    modify (set_history []).

Definition save_history : M unit :=
  h <- gets history ;;
  json_dump h.

(** The body of [if st.button("Clear Chat History")]. [st.rerun()] ends
    the run with streamlit's [RerunException]. *)
Definition clear_chat_history : M unit :=
  modify (set_history []) ;;
  modify (set_chat_history []) ;;
  present <- os_path_exists ;;
  (if (present : bool) then os_remove else ret tt) ;;
  raise RerunException.

(** The body of [if user_input]. *)
Definition exchange (user_input : string) : M unit :=
  modify (fun s => set_history (history s ++ [user_turn user_input]) s) ;;
  emit (ChatMessage "user" person user_input) ;;
  response <- get_response user_input ;;
  modify (fun s => set_history (history s ++ [bot_turn response]) s) ;;
  emit (ChatMessage "assistant" robot response) ;;
  save_history.

Definition show (message : Turn) : M unit :=
  emit (ChatMessage (role message)
          (if String.eqb (role message) "user" then person else robot)
          (content message)).

(** [button]: what [st.button] returned; [chat_input]: what
    [st.chat_input] returned. *)
Definition setup_ui (button : bool) (chat_input : option string) : M unit :=
  emit SetPageConfig ;;
  emit Title ;;
  (if button then clear_chat_history else ret tt) ;;
  h <- gets history ;;
  for_each h show ;;
  match chat_input with
  | Some user_input => if truthy user_input then exchange user_input else ret tt
  | None => ret tt
  end.

Definition ChatInterface_init (button : bool) (chat_input : option string) : M unit :=
  load_history ;;
  setup_ui button chat_input.

(** *** main *)

Definition missing_key_message : string :=
  "Error: GEMINI_API_KEY not found in .env file or environment variables.".

(** [API_KEY]: what [os.getenv("GEMINI_API_KEY")] returned. *)
Definition main (API_KEY : option string) (button : bool)
    (chat_input : option string) : M unit :=
  match API_KEY with
  | Some key =>
      if truthy key then
        ChatBot_init key ;;
        ChatInterface_init button chat_input
      else emit (StError missing_key_message)
  | None => emit (StError missing_key_message)
  end.

End Program.

(** The outcome of lines 24 and 27 together: the text of the response to
    a prompt, or the exception raised on the way. *)
Definition remote_text (r : try Response) : try string :=
  match r with
  | Return response => text response
  | Throw e => Throw e
  end.

Definition is_Exception (e : exn) : bool :=
  match e with
  | Error _ _ => true
  | Exit _ => false
  end.

(** The state a computation ends in, when it ends. *)
Definition final {A} (o : outcome A) : option State :=
  match o with
  | Returns _ s => Some s
  | Raises _ s => Some s
  | Unmodelled => None
  end.

(** The prompt in the words of the specification: each turn as
    [<role>: <content>], a newline between neighbours. *)
Fixpoint spec_prompt (h : list Turn) : string :=
  match h with
  | [] => ""
  | t :: rest =>
      match rest with
      | [] => role t ++ ": " ++ content t
      | _ :: _ => role t ++ ": " ++ content t ++ String newline (spec_prompt rest)
      end
  end.

(** The roles of the turns the program builds. *)
Definition program_role (r : string) : Prop := r = "user" \/ r = "bot".

(** ** Sample inputs *)

Definition fresh : State :=
  {| history := []; chat_history := []; history_file := None; events := [] |}.

(** A remote model that answers every prompt with the same text. *)
Definition greeter (prompt : string) : try Response :=
  Return {| text := Return "hello" |}.

(** A remote model out of quota: the call raises. *)
Definition exhausted (prompt : string) : try Response :=
  Throw (Error "ResourceExhausted" "429 quota exceeded").

(** A remote model whose call is interrupted from the keyboard. *)
Definition interrupted (prompt : string) : try Response :=
  Throw (Exit "KeyboardInterrupt").


(** ** Whole runs *)

(** The chat bubble the display loop draws for a stored turn (lines 83-85):
    the stored role as the name, the person icon for the role ["user"] and
    the robot icon for any other. *)
Definition bubble (message : Turn) : event :=
  ChatMessage (role message)
    (if String.eqb (role message) "user" then person else robot)
    (content message).

(** The state after some more events. *)
Definition log_all (evs : list event) (s : State) : State :=
  {| history := history s; chat_history := chat_history s;
     history_file := history_file s; events := (events s ++ evs)%list |}.

(** The turns the file holds for [load_history]: none without a file, the
    decoded array with one, nothing when the file is no array of turns. *)
Definition persisted (s : State) : option (list Turn) :=
  match history_file s with
  | None => Some []
  | Some doc =>
      match json.loads doc with
      | json.Turns ts => Some ts
      | json.Invalid _ => None
      | json.Foreign => None
      end
  end.

(** Printable ASCII: space to tilde. *)
Definition printable (c : ascii) : bool := (32 <=? ord c) && (ord c <=? 126).

Fixpoint all_chars (p : ascii -> bool) (s : string) : bool :=
  match s with
  | EmptyString => true
  | String c rest => p c && all_chars p rest
  end.

(** A session that comes back to a saved conversation. *)
Definition returning : State :=
  {| history := []; chat_history := [];
     history_file := Some (json.dumps [user_turn "hi"; bot_turn "hello"]);
     events := [] |}.

(** A session whose file was cut to nothing. *)
Definition blank : State :=
  {| history := []; chat_history := []; history_file := Some "  ";
     events := [] |}.

(** * Properties *)

(** ** Text *)

Lemma append_assoc (a b c : string) : (a ++ b) ++ c = a ++ (b ++ c).
Proof.
  induction a as [|x a IH]; simpl; [reflexivity|].
  now rewrite IH.
Qed.

Lemma length_append (a b : string) :
  String.length (a ++ b) = String.length a + String.length b.
Proof.
  induction a as [|x a IH]; simpl; [reflexivity|].
  now rewrite IH.
Qed.

Lemma fold_join_shift sep (l : list string) (x y : string) :
  fold_left (fun acc item => acc ++ sep ++ item) l (x ++ y)
  = x ++ fold_left (fun acc item => acc ++ sep ++ item) l y.
Proof.
  revert y.
  induction l as [|z l IH]; intros y; simpl; [reflexivity|].
  rewrite append_assoc.
  apply IH.
Qed.

Lemma join_cons sep (x y : string) (l : list string) :
  join sep (x :: y :: l) = x ++ sep ++ join sep (y :: l).
Proof.
  unfold join; simpl.
  rewrite fold_join_shift.
  f_equal.
  apply fold_join_shift.
Qed.

(** ** The json module: what is written is read back *)

Lemma scanstring_escape_char (c : ascii) (t : string) :
  json.scanstring (json.escape_char c ++ t)
  = json.cons_char c (json.scanstring t).
Proof.
  destruct c as [[] [] [] [] [] [] [] []]; reflexivity.
Qed.

Lemma scanstring_escape (s rest : string) :
  json.scanstring (json.escape s ++ String quote rest) = Some (s, rest).
Proof.
  induction s as [|c s IH]; simpl.
  - reflexivity.
  - rewrite append_assoc, scanstring_escape_char, IH.
    reflexivity.
Qed.

Lemma scan_quoted_encoded (s rest : string) :
  json.scan_quoted (json.encode_basestring_ascii s ++ rest) = Some (s, rest).
Proof.
  unfold json.scan_quoted, json.encode_basestring_ascii.
  cbn [append json.skip_whitespace].
  change (json.is_whitespace quote) with false.
  cbn [json.expect].
  change (ord quote =? ord quote) with true.
  cbv iota.
  rewrite append_assoc.
  apply scanstring_escape.
Qed.

Lemma scan_quoted_space (s : string) :
  json.scan_quoted (String " " s) = json.scan_quoted s.
Proof. reflexivity. Qed.

Lemma expect_after_whitespace (c : ascii) (s : string) :
  json.is_whitespace c = false ->
  json.expect c (json.skip_whitespace (String c s)) = Some s.
Proof.
  intros H.
  cbn [json.skip_whitespace].
  rewrite H.
  cbn [json.expect].
  now rewrite Nat.eqb_refl.
Qed.

Lemma scan_member_encoded (k v rest : string) :
  json.scan_member k
    (json.encode_basestring_ascii k
       ++ String ":" (String " " (json.encode_basestring_ascii v ++ rest)))
  = Some (v, rest).
Proof.
  unfold json.scan_member.
  rewrite scan_quoted_encoded, String.eqb_refl.
  rewrite expect_after_whitespace by reflexivity.
  rewrite scan_quoted_space.
  apply scan_quoted_encoded.
Qed.

Lemma scan_member_space (k s : string) :
  json.scan_member k (String " " s) = json.scan_member k s.
Proof. reflexivity. Qed.

Lemma scan_turn_dumped (t : Turn) (rest : string) :
  exists s1, json.dump_turn t ++ rest = String "{" s1 /\
             json.scan_turn s1 = Some (t, rest).
Proof.
  unfold json.dump_turn.
  repeat rewrite append_assoc.
  cbn [append].
  eexists; split; [reflexivity|].
  unfold json.scan_turn.
  rewrite scan_member_encoded.
  rewrite expect_after_whitespace by reflexivity.
  rewrite scan_member_space, scan_member_encoded.
  rewrite expect_after_whitespace by reflexivity.
  destruct t; reflexivity.
Qed.

Lemma length_dump_turn (t : Turn) : 1 <= String.length (json.dump_turn t).
Proof.
  unfold json.dump_turn.
  cbn [append String.length].
  lia.
Qed.

Lemma items_start (t : Turn) (l : list string) (rest : string) :
  exists s1, join ", " (json.dump_turn t :: l) ++ rest = String "{" s1.
Proof.
  destruct l as [|x l].
  - cbn [join fold_left].
    destruct (scan_turn_dumped t rest) as [s1 [E _]].
    now exists s1.
  - rewrite join_cons, append_assoc.
    destruct (scan_turn_dumped t ((", " ++ join ", " (x :: l)) ++ rest))
      as [s1 [E _]].
    now exists s1.
Qed.

(** The items of a non-empty array, as [json.dumps] writes them. *)
Lemma scan_items_dumped (ts : list Turn) :
  forall (t : Turn) (fuel : nat) (rest : string),
    length ts < fuel ->
    json.scan_items fuel
      (join ", " (map json.dump_turn (t :: ts)) ++ String "]" rest)
    = Some (t :: ts, rest).
Proof.
  induction ts as [|t' ts IH]; intros t fuel rest Hfuel.
  - destruct fuel as [|fuel]; [inversion Hfuel|].
    cbn [map join fold_left json.scan_items].
    destruct (scan_turn_dumped t (String "]" rest)) as [s1 [E1 E2]].
    rewrite E1.
    cbn [json.expect].
    rewrite Nat.eqb_refl, E2.
    reflexivity.
  - destruct fuel as [|fuel]; [inversion Hfuel|].
    cbn [map].
    rewrite join_cons.
    repeat rewrite append_assoc.
    cbn [json.scan_items].
    destruct (scan_turn_dumped t
                (", " ++ join ", " (json.dump_turn t' :: map json.dump_turn ts)
                   ++ String "]" rest)) as [s1 [E1 E2]].
    rewrite E1.
    cbn [json.expect].
    rewrite Nat.eqb_refl, E2.
    cbn [append json.skip_whitespace].
    change (json.is_whitespace ",") with false.
    cbv iota.
    change (ord "," =? 44) with true.
    cbv iota.
    change (json.skip_whitespace (String " " ?x)) with (json.skip_whitespace x).
    destruct (items_start t' (map json.dump_turn ts) (String "]" rest))
      as [s2 E3].
    rewrite E3.
    change (json.skip_whitespace (String "{" s2)) with (String "{" s2).
    rewrite <- E3.
    change (json.dump_turn t' :: map json.dump_turn ts)
      with (map json.dump_turn (t' :: ts)).
    rewrite IH by (simpl in Hfuel; lia).
    reflexivity.
Qed.

Lemma length_join_dumped (ts : list Turn) (t : Turn) :
  length ts < String.length (join ", " (map json.dump_turn (t :: ts))).
Proof.
  revert t.
  induction ts as [|t' ts IH]; intros t.
  - cbn [map join fold_left length].
    pose proof (length_dump_turn t); lia.
  - cbn [map].
    rewrite join_cons.
    repeat rewrite length_append.
    specialize (IH t').
    cbn [map] in IH.
    cbn [length].
    change (String.length ", ") with 2.
    lia.
Qed.

(** Decoding what [json.dumps] wrote gives the turns back. *)
Lemma loads_dumps (ts : list Turn) : json.loads (json.dumps ts) = json.Turns ts.
Proof.
  unfold json.loads, json.scan_turns, json.scan_array, json.dumps.
  cbn [append json.skip_whitespace].
  change (json.is_whitespace "[") with false.
  cbv iota.
  cbn [json.expect].
  change (ord "[" =? ord "[") with true.
  cbv iota zeta.
  destruct ts as [|t ts].
  - reflexivity.
  - destruct (items_start t (map json.dump_turn ts) "]") as [s2 E].
    cbn [map].
    rewrite E.
    change (json.skip_whitespace (String "{" s2)) with (String "{" s2).
    change (json.expect "]" (String "{" s2)) with (@None string).
    cbv iota.
    rewrite <- E.
    change (json.dump_turn t :: map json.dump_turn ts)
      with (map json.dump_turn (t :: ts)).
    rewrite scan_items_dumped.
    + reflexivity.
    + rewrite length_append.
      pose proof (length_join_dumped ts t).
      lia.
Qed.

(** ** The prompt *)

Lemma conversation_of_spec (h : list Turn) : conversation_of h = spec_prompt h.
Proof.
  unfold conversation_of.
  induction h as [|t rest IH]; [reflexivity|].
  destruct rest as [|t' rest].
  - reflexivity.
  - cbn [map] in *.
    rewrite join_cons, IH.
    unfold format_turn.
    cbn [spec_prompt].
    now repeat rewrite append_assoc.
Qed.

Lemma prefix_append (p s : string) : String.prefix p (p ++ s) = true.
Proof.
  induction p as [|c p IH]; simpl.
  - now destruct s.
  - destruct (ascii_dec c c) as [_|N]; [exact IH|now elim N].
Qed.

(** ** Running the program *)

(** Unfolds the plumbing of [M] and reduces the applications it leaves. *)
Ltac run_monad :=
  unfold os_path_exists, os_remove, open_read, json_dump, emit;
  unfold bind, ret, raise, gets, modify, lift;
  cbv beta.

(** [get_response], by the outcome of the remote call. *)
Lemma get_response_run gemini (u : string) (s : State) :
  let h := (chat_history s ++ [user_turn u])%list in
  let s1 := log (GenerateContent (conversation_of h)) (set_chat_history h s) in
  get_response gemini u s
  = match remote_text (gemini (conversation_of h)) with
    | Return t => Returns t (set_chat_history (h ++ [bot_turn t]) s1)
    | Throw (Error _ msg) => Returns ("Error: " ++ msg) s1
    | Throw (Exit cls) => Raises (Exit cls) s1
    end.
Proof.
  cbv zeta.
  unfold get_response, try_except_Exception, generate_content, bind, modify,
    gets, emit, lift, ret, raise, remote_text.
  cbn [chat_history set_chat_history log].
  destruct (gemini _) as [[[t|e]]|e]; cbn [text].
  - reflexivity.
  - destruct e; reflexivity.
  - destruct e; reflexivity.
Qed.

(** Showing the stored turns changes nothing but the page. *)
Lemma for_each_show (h : list Turn) (s : State) :
  exists s', for_each h show s = Returns tt s'
             /\ history s' = history s
             /\ chat_history s' = chat_history s
             /\ history_file s' = history_file s.
Proof.
  revert s.
  induction h as [|m h IH]; intros s.
  - exists s. now repeat split.
  - cbn [for_each].
    unfold bind at 1, show at 1, emit, modify.
    destruct (IH (log (ChatMessage (role m)
                         (if (role m =? "user")%string then person else robot)
                         (content m)) s))
      as [s' [E [H1 [H2 H3]]]].
    exists s'.
    now rewrite E.
Qed.

(** [exchange], by the outcome of the remote call. *)
Lemma exchange_run gemini (u : string) (s : State) :
  let h := (chat_history s ++ [user_turn u])%list in
  let s1 := log (GenerateContent (conversation_of h))
              (set_chat_history h
                 (log (ChatMessage "user" person u)
                    (set_history (history s ++ [user_turn u]) s))) in
  let finish (answer : string) (s2 : State) :=
    set_history_file
      (Some (json.dumps (history s ++ [user_turn u; bot_turn answer])))
      (log (ChatMessage "assistant" robot answer)
         (set_history (history s ++ [user_turn u; bot_turn answer]) s2)) in
  exchange gemini u s
  = match remote_text (gemini (conversation_of h)) with
    | Return t => Returns tt (finish t (set_chat_history (h ++ [bot_turn t]) s1))
    | Throw (Error _ msg) => Returns tt (finish ("Error: " ++ msg) s1)
    | Throw (Exit cls) => Raises (Exit cls) s1
    end.
Proof.
  cbv zeta.
  unfold exchange.
  unfold bind at 1, modify at 1.
  unfold bind at 1, emit at 1, modify at 1.
  unfold bind at 1.
  rewrite get_response_run.
  cbn [chat_history set_chat_history set_history log].
  destruct (remote_text _) as [t|[cls msg|cls]].
  - unfold bind, modify, emit, save_history, gets, json_dump.
    cbn [history set_history log set_chat_history].
    rewrite <- app_assoc.
    reflexivity.
  - unfold bind, modify, emit, save_history, gets, json_dump.
    cbn [history set_history log set_chat_history].
    rewrite <- app_assoc.
    reflexivity.
  - reflexivity.
Qed.

(** A run starts its page with the chatbot's history equal to the session
    history: the constructor empties the former, [load_history] copies the
    latter into it. *)
Lemma run_starts_in_sync (key : string) (s s' : State) :
  bind (ChatBot_init key) (fun _ => load_history) s = Returns tt s' ->
  chat_history s' = history s'.
Proof.
  unfold ChatBot_init.
  unfold bind at 1 2, emit, modify.
  remember (set_chat_history [] (log (Configure key) s)) as s0 eqn:E0.
  assert (C : chat_history s0 = []) by now subst s0.
  clear E0.
  unfold load_history.
  run_monad.
  destruct (history_file s0) as [doc|] eqn:F; cbv beta iota.
  - rewrite F; cbv beta iota.
    unfold json_load.
    destruct (json.loads doc); run_monad; intros E; try discriminate E.
    injection E as <-; reflexivity.
  - intros E; injection E as <-.
    exact C.
Qed.

(** ** The response generator *)

(** C1, counterexample. The claim lets the remote call throw anything. An
    exception outside the [Exception] hierarchy, here [KeyboardInterrupt],
    is not matched by [except Exception]: [get_response] raises it, after
    the user turn went into [chat_history]. *)
Lemma get_response_raises_KeyboardInterrupt :
  get_response interrupted "hi" fresh
  = Raises (Exit "KeyboardInterrupt")
      {| history := []; chat_history := [user_turn "hi"];
         history_file := None; events := [GenerateContent "user: hi"] |}.
Proof. reflexivity. Qed.

(** C1, as amended. Whatever the input and the stored turns, when every
    exception the remote call can throw for the prompt is an instance of
    [Exception], [get_response] returns a string and does not raise; when
    the call failed, that string starts with ["Error: "]. *)
Theorem get_response_returns_on_Exception gemini (u : string) (s : State) :
  let prompt := conversation_of (chat_history s ++ [user_turn u]) in
  (forall e, remote_text (gemini prompt) = Throw e -> is_Exception e = true) ->
  exists answer s',
    get_response gemini u s = Returns answer s'
    /\ (forall e, remote_text (gemini prompt) = Throw e ->
                  String.prefix "Error: " answer = true).
Proof.
  cbv zeta; intros H.
  rewrite get_response_run; cbv zeta.
  destruct (remote_text _) as [t|[cls msg|cls]].
  - eexists; eexists; split; [reflexivity|].
    intros e E; discriminate E.
  - eexists; eexists; split; [reflexivity|].
    intros _ _; apply prefix_append.
  - specialize (H _ eq_refl); discriminate H.
Qed.

(** An instance: the remote model is out of quota. *)
Lemma get_response_returns_on_Exception_witness :
  (forall e, remote_text (exhausted (conversation_of
                                       (chat_history fresh ++ [user_turn "hi"])))
             = Throw e -> is_Exception e = true)
  /\ exists answer s',
       get_response exhausted "hi" fresh = Returns answer s'
       /\ (forall e, remote_text (exhausted (conversation_of
                                       (chat_history fresh ++ [user_turn "hi"])))
                     = Throw e -> String.prefix "Error: " answer = true).
Proof.
  assert (H : forall e,
             remote_text (exhausted (conversation_of
                                       (chat_history fresh ++ [user_turn "hi"])))
             = Throw e -> is_Exception e = true).
  { intros e E; injection E as <-; reflexivity. }
  split; [exact H|].
  exact (get_response_returns_on_Exception exhausted "hi" fresh H).
Defined.

(** C4. For every stored history and input, [get_response] sends the remote
    model exactly one prompt: the turns, the new user turn last, each as
    [<role>: <content>] and joined by single newlines; when the call
    succeeds, it returns the text of the response as it came. *)
Theorem get_response_sends_prompt gemini (u : string) (s : State) :
  let prompt := spec_prompt (chat_history s ++ [user_turn u]) in
  (exists s', final (get_response gemini u s) = Some s'
              /\ events s' = (events s ++ [GenerateContent prompt])%list)
  /\ (forall t, remote_text (gemini prompt) = Return t ->
                exists s', get_response gemini u s = Returns t s').
Proof.
  cbv zeta.
  rewrite get_response_run; cbv zeta.
  rewrite conversation_of_spec.
  split.
  - destruct (remote_text _) as [t|[cls msg|cls]];
      eexists; (split; [reflexivity|reflexivity]).
  - intros t E; rewrite E.
    eexists; reflexivity.
Qed.

(** An instance: the third turn of a conversation. *)
Lemma get_response_sends_prompt_witness :
  remote_text (greeter (spec_prompt [user_turn "hi"; bot_turn "hello";
                                     user_turn "bye"]))
  = Return "hello"
  /\ exists s',
      get_response greeter "bye"
        {| history := []; chat_history := [user_turn "hi"; bot_turn "hello"];
           history_file := None; events := [] |}
      = Returns "hello" s'.
Proof.
  split; [reflexivity|].
  exact (proj2 (get_response_sends_prompt greeter "bye"
                  {| history := [];
                     chat_history := [user_turn "hi"; bot_turn "hello"];
                     history_file := None; events := [] |})
           "hello" eq_refl).
Defined.

(** ** The conversation store *)

(** C2. For every sequence of turns in the store, [save_history] followed
    by [load_history] gives the same sequence back: same turns, same order,
    same role and content. *)
Theorem save_then_load (s : State) :
  exists s1 s2,
    save_history s = Returns tt s1
    /\ load_history s1 = Returns tt s2
    /\ history s2 = history s
    /\ chat_history s2 = history s.
Proof.
  eexists; eexists.
  split; [reflexivity|].
  unfold load_history, bind, os_path_exists, gets, open_read, json_load.
  cbn [history_file set_history_file history].
  rewrite loads_dumps.
  repeat split.
Qed.



(** C6. From every state of the store, the Clear Chat History action
    followed by [load_history] leaves an empty sequence of turns and no
    backing file. *)
Theorem clear_then_load (s : State) :
  exists s1 s2,
    clear_chat_history s = Raises RerunException s1
    /\ load_history s1 = Returns tt s2
    /\ history s2 = []
    /\ history_file s2 = None.
Proof.
  unfold clear_chat_history, load_history, bind, modify, os_path_exists, gets,
    os_remove, raise, ret.
  cbn [history_file set_history set_chat_history].
  destruct (history_file s) as [doc|] eqn:E.
  - eexists; eexists; split; [reflexivity|].
    cbn [history_file set_history_file].
    repeat split.
  - eexists; eexists; split; [reflexivity|].
    cbn [history_file set_history set_chat_history].
    rewrite E.
    repeat split.
    exact E.
Qed.

(** ** Roles *)

(** C3, counterexample. The turn [get_response] appends for the generated
    answer has the role ["bot"], which is neither ["user"] nor
    ["assistant"]. *)
Lemma get_response_appends_bot_role :
  get_response greeter "hi" fresh
  = Returns "hello"
      {| history := [];
         chat_history := [ {| role := "user"; content := "hi" |};
                           {| role := "bot"; content := "hello" |} ];
         history_file := None;
         events := [GenerateContent "user: hi"] |}
  /\ "bot" <> "user" /\ "bot" <> "assistant".
Proof. repeat split; discriminate. Qed.

(** C3, as amended. Every turn the program builds has the role ["user"] or
    ["bot"]: whatever the input, the stored turns and the outcome of the
    remote call, [get_response] and the page handler only append turns with
    one of these two roles, and leave the turns already stored in place. *)
Theorem appended_turns_have_program_roles gemini (u : string) (s : State) :
  (exists s' added,
      final (get_response gemini u s) = Some s'
      /\ chat_history s' = (chat_history s ++ added)%list
      /\ history s' = history s
      /\ Forall (fun t => program_role (role t)) added)
  /\ (exists s' added_session added_chatbot,
         final (exchange gemini u s) = Some s'
         /\ history s' = (history s ++ added_session)%list
         /\ chat_history s' = (chat_history s ++ added_chatbot)%list
         /\ Forall (fun t => program_role (role t)) added_session
         /\ Forall (fun t => program_role (role t)) added_chatbot).
Proof.
  assert (U : forall x, program_role (role (user_turn x))) by (intros; now left).
  assert (B : forall x, program_role (role (bot_turn x))) by (intros; now right).
  split.
  - rewrite get_response_run; cbv zeta.
    destruct (remote_text _) as [t|[cls msg|cls]].
    + exists (set_chat_history
                ((chat_history s ++ [user_turn u]) ++ [bot_turn t])
                (log (GenerateContent
                        (conversation_of (chat_history s ++ [user_turn u])))
                   (set_chat_history (chat_history s ++ [user_turn u]) s))),
        [user_turn u; bot_turn t].
      cbn [final chat_history history set_chat_history log].
      rewrite <- app_assoc.
      repeat split; auto.
    + eexists; exists [user_turn u].
      cbn [final chat_history history set_chat_history log].
      repeat split; auto.
    + eexists; exists [user_turn u].
      cbn [final chat_history history set_chat_history log].
      repeat split; auto.
  - rewrite exchange_run; cbv zeta.
    destruct (remote_text _) as [t|[cls msg|cls]].
    + eexists; exists [user_turn u; bot_turn t], [user_turn u; bot_turn t].
      cbn [final chat_history history set_chat_history set_history
             set_history_file log].
      rewrite <- app_assoc.
      repeat split; auto.
    + eexists; exists [user_turn u; bot_turn ("Error: " ++ msg)], [user_turn u].
      cbn [final chat_history history set_chat_history set_history
             set_history_file log].
      repeat split; auto.
    + eexists; exists [user_turn u], [user_turn u].
      cbn [final chat_history history set_chat_history set_history
             set_history_file log].
      repeat split; auto.
Qed.

(** ** Exchanges *)

(** C8. For every stored history and every message the user submits, an
    exchange whose remote call succeeds appends exactly two turns, the user
    turn and then the generated turn, with the roles ["user"] and ["bot"];
    the turns stored before keep their content and their position. *)
Theorem successful_exchange_appends gemini (u t : string) (s : State) :
  truthy u = true ->
  remote_text (gemini (conversation_of (chat_history s ++ [user_turn u])))
  = Return t ->
  exists s',
    setup_ui gemini false (Some u) s = Returns tt s'
    /\ history s' = (history s ++ [user_turn u; bot_turn t])%list
    /\ chat_history s' = (chat_history s ++ [user_turn u; bot_turn t])%list
    /\ role (user_turn u) = "user" /\ role (bot_turn t) = "bot"
    /\ role (user_turn u) <> role (bot_turn t)
    /\ length (history s') = length (history s) + 2
    /\ (forall i, i < length (history s) ->
                  nth_error (history s') i = nth_error (history s) i).
Proof.
  intros Hu Ht.
  unfold setup_ui.
  rewrite Hu.
  unfold bind at 1, emit at 1, modify at 1.
  unfold bind at 1, emit at 1, modify at 1.
  unfold bind at 1, ret at 1.
  unfold bind at 1, gets at 1.
  cbn [history log].
  unfold bind at 1.
  destruct (for_each_show (history s) (log Title (log SetPageConfig s)))
    as [s0 [E [H1 [H2 H3]]]].
  rewrite E.
  cbn [history chat_history history_file log] in H1, H2, H3.
  rewrite exchange_run; cbv zeta.
  rewrite H1, H2, Ht.
  eexists; split; [reflexivity|].
  cbn [history chat_history set_history set_chat_history set_history_file log].
  rewrite <- app_assoc.
  repeat split.
  - discriminate.
  - rewrite length_app; reflexivity.
  - intros i Hi.
    now apply nth_error_app1.
Qed.

(** An instance: the first exchange of a session. *)
Lemma successful_exchange_appends_witness :
  truthy "hi" = true
  /\ remote_text (greeter (conversation_of
                             (chat_history fresh ++ [user_turn "hi"])))
     = Return "hello"
  /\ exists s',
      setup_ui greeter false (Some "hi") fresh = Returns tt s'
      /\ history s' = (history fresh ++ [user_turn "hi"; bot_turn "hello"])%list
      /\ chat_history s'
         = (chat_history fresh ++ [user_turn "hi"; bot_turn "hello"])%list
      /\ role (user_turn "hi") = "user" /\ role (bot_turn "hello") = "bot"
      /\ role (user_turn "hi") <> role (bot_turn "hello")
      /\ length (history s') = length (history fresh) + 2
      /\ (forall i, i < length (history fresh) ->
                    nth_error (history s') i = nth_error (history fresh) i).
Proof.
  split; [reflexivity|].
  split; [reflexivity|].
  exact (successful_exchange_appends greeter "hi" "hello" fresh eq_refl eq_refl).
Defined.

(** C10. A failed remote call is not atomic for the conversation state:
    when the call raises an error, [chat_history] has gained the user turn
    and no answer turn, while the page handler appends the returned
    ["Error: ..."] string to the session history as a bot turn and writes
    that history to the file. *)
Theorem failed_exchange_is_recorded gemini (u cls msg : string) (s : State) :
  remote_text (gemini (conversation_of (chat_history s ++ [user_turn u])))
  = Throw (Error cls msg) ->
  exists s',
    exchange gemini u s = Returns tt s'
    /\ chat_history s' = (chat_history s ++ [user_turn u])%list
    /\ history s'
       = (history s ++ [user_turn u; bot_turn ("Error: " ++ msg)])%list
    /\ history_file s' = Some (json.dumps (history s')).
Proof.
  intros H.
  rewrite exchange_run; cbv zeta.
  rewrite H.
  eexists; split; [reflexivity|].
  repeat split.
Qed.

(** An instance: the remote model is out of quota. *)
Lemma failed_exchange_is_recorded_witness :
  remote_text (exhausted (conversation_of
                            (chat_history fresh ++ [user_turn "hi"])))
  = Throw (Error "ResourceExhausted" "429 quota exceeded")
  /\ exists s',
      exchange exhausted "hi" fresh = Returns tt s'
      /\ chat_history s' = (chat_history fresh ++ [user_turn "hi"])%list
      /\ history s'
         = (history fresh
              ++ [user_turn "hi"; bot_turn ("Error: " ++ "429 quota exceeded")])%list
      /\ history_file s' = Some (json.dumps (history s')).
Proof.
  split; [reflexivity|].
  exact (failed_exchange_is_recorded exhausted "hi" "ResourceExhausted"
           "429 quota exceeded" fresh eq_refl).
Defined.

(** ** Persistence *)

(** C7, counterexample. After an exchange whose remote call failed, the
    file holds the session history, and the chatbot's [chat_history]
    differs from both: it lacks the error turn. *)
Lemma failed_exchange_leaves_chat_history_behind :
  exists s',
    exchange exhausted "hi" fresh = Returns tt s'
    /\ history_file s' = Some (json.dumps (history s'))
    /\ history_file s' <> Some (json.dumps (chat_history s'))
    /\ chat_history s' <> history s'.
Proof.
  eexists; split; [reflexivity|].
  repeat split; discriminate.
Qed.

(** C7, as amended. After every save the file holds exactly the JSON text
    of the session history: [save_history] overwrites the file with the
    whole current sequence and changes nothing in memory, and so does every
    exchange that returns. The chatbot's [chat_history] agrees with both
    when it agreed with the session before the exchange and the remote call
    succeeded. *)
Theorem saved_file_is_session_history gemini (u : string) (s : State) :
  (exists s1,
      save_history s = Returns tt s1
      /\ history_file s1 = Some (json.dumps (history s1))
      /\ history s1 = history s
      /\ chat_history s1 = chat_history s)
  /\ (forall s', exchange gemini u s = Returns tt s' ->
                 history_file s' = Some (json.dumps (history s')))
  /\ (forall s' t,
         chat_history s = history s ->
         remote_text (gemini (conversation_of (chat_history s ++ [user_turn u])))
         = Return t ->
         exchange gemini u s = Returns tt s' ->
         chat_history s' = history s').
Proof.
  split; [|split].
  - eexists; split; [reflexivity|].
    repeat split.
  - intros s'.
    rewrite exchange_run; cbv zeta.
    destruct (remote_text _) as [t|[cls msg|cls]]; intros E.
    + injection E as <-; reflexivity.
    + injection E as <-; reflexivity.
    + discriminate E.
  - intros s' t Hsync Ht.
    rewrite exchange_run; cbv zeta.
    rewrite Ht.
    intros E; injection E as <-.
    cbn [history chat_history set_history set_chat_history set_history_file log].
    rewrite Hsync, <- app_assoc.
    reflexivity.
Qed.

(** An instance: the first exchange of a session, answered. *)
Lemma saved_file_is_session_history_witness :
  exists s',
    exchange greeter "hi" fresh = Returns tt s'
    /\ chat_history fresh = history fresh
    /\ remote_text (greeter (conversation_of
                               (chat_history fresh ++ [user_turn "hi"])))
       = Return "hello"
    /\ history_file s' = Some (json.dumps (history s'))
    /\ chat_history s' = history s'.
Proof.
  eexists.
  split; [reflexivity|].
  split; [reflexivity|].
  split; [reflexivity|].
  split.
  - exact (proj1 (proj2 (saved_file_is_session_history greeter "hi" fresh))
             _ eq_refl).
  - exact (proj2 (proj2 (saved_file_is_session_history greeter "hi" fresh))
             _ "hello" eq_refl eq_refl eq_refl).
Defined.

(** ** Start-up *)

(** C9. When [GEMINI_API_KEY] is absent (or empty), [main] shows the error
    message and returns: no chatbot is configured, no remote call is made,
    and the session history, the chatbot history and the file are as they
    were. *)
Theorem main_without_key gemini (button : bool) (chat_input : option string)
    (s : State) :
  main gemini None button chat_input s
  = Returns tt
      {| history := history s; chat_history := chat_history s;
         history_file := history_file s;
         events := (events s ++ [StError missing_key_message])%list |}
  /\ main gemini (Some "") button chat_input s
     = main gemini None button chat_input s.
Proof. split; reflexivity. Qed.

(** * The program as a whole *)

(** ** Runs, step by step *)

Lemma log_all_nil (s : State) : log_all [] s = s.
Proof.
  destruct s; unfold log_all; cbn.
  now rewrite app_nil_r.
Qed.

Lemma log_all_log (ev : event) (evs : list event) (s : State) :
  log_all evs (log ev s) = log_all (ev :: evs) s.
Proof.
  unfold log_all, log; cbn.
  now rewrite <- app_assoc.
Qed.

Lemma log_all_log_all (a b : list event) (s : State) :
  log_all b (log_all a s) = log_all (a ++ b) s.
Proof.
  unfold log_all; cbn.
  now rewrite <- app_assoc.
Qed.

(** The display loop draws one bubble per stored turn, in order. *)
Lemma for_each_show_bubbles (h : list Turn) (s : State) :
  for_each h show s = Returns tt (log_all (map bubble h) s).
Proof.
  revert s.
  induction h as [|m h IH]; intros s.
  - cbn. now rewrite log_all_nil.
  - cbn [for_each map].
    unfold bind at 1, show at 1, emit, modify.
    fold (bubble m).
    now rewrite IH, log_all_log.
Qed.

(** A run up to the page: the chatbot is built, the file is loaded. *)
Lemma main_loads gemini (key : string) (button : bool)
    (chat_input : option string) (ts : list Turn) (s : State) :
  truthy key = true ->
  persisted s = Some ts ->
  main gemini (Some key) button chat_input s
  = setup_ui gemini button chat_input
      {| history := ts; chat_history := ts; history_file := history_file s;
         events := (events s ++ [Configure key])%list |}.
Proof.
  intros K P.
  unfold main, ChatInterface_init, ChatBot_init, load_history.
  rewrite K.
  unfold persisted in P.
  run_monad.
  cbn [history_file set_chat_history log].
  destruct (history_file s) as [doc|] eqn:F; cbv beta iota.
  - cbn [history_file set_chat_history log].
    rewrite F; cbv beta iota.
    unfold json_load.
    destruct (json.loads doc) as [ts'| |]; try discriminate P.
    injection P as ->.
    unfold ret, set_chat_history, set_history, log.
    cbn [history chat_history history_file events].
    now rewrite F.
  - injection P as <-.
    unfold set_chat_history, set_history, log.
    cbn [history chat_history history_file events].
    now rewrite F.
Qed.

(** The page without the Clear button pressed. *)
Lemma setup_ui_plain gemini (chat_input : option string) (s : State) :
  setup_ui gemini false chat_input s
  = let s1 := log_all (SetPageConfig :: Title :: map bubble (history s)) s in
    match chat_input with
    | Some user_input =>
        if truthy user_input then exchange gemini user_input s1
        else Returns tt s1
    | None => Returns tt s1
    end.
Proof.
  unfold setup_ui.
  unfold bind at 1, emit at 1, modify at 1.
  unfold bind at 1, emit at 1, modify at 1.
  unfold bind at 1, ret at 1.
  unfold bind at 1, gets at 1.
  cbn [history log].
  unfold bind at 1.
  rewrite for_each_show_bubbles.
  rewrite 2 log_all_log.
  cbv zeta.
  destruct chat_input as [u|]; [destruct (truthy u)|]; reflexivity.
Qed.

(** The page with the Clear button pressed. *)
Lemma setup_ui_clear gemini (chat_input : option string) (s : State) :
  setup_ui gemini true chat_input s
  = Raises RerunException
      {| history := []; chat_history := []; history_file := None;
         events := (events s ++ [SetPageConfig; Title])%list |}.
Proof.
  unfold setup_ui, clear_chat_history.
  run_monad.
  cbn [history_file set_history set_chat_history log].
  destruct (history_file s) as [doc|] eqn:F; cbv beta iota.
  - unfold set_history_file, set_history, set_chat_history, log; cbn.
    now rewrite <- app_assoc.
  - unfold set_history, set_chat_history, log; cbn.
    now rewrite F, <- app_assoc.
Qed.

(** A run with a submitted message, by the outcome of the remote call. *)
Lemma main_exchange gemini (key u : string) (ts : list Turn) (s : State) :
  truthy key = true ->
  truthy u = true ->
  persisted s = Some ts ->
  let prompt := spec_prompt (ts ++ [user_turn u]) in
  let shown :=
    (events s ++ Configure key :: SetPageConfig :: Title :: map bubble ts
       ++ [ChatMessage "user" person u; GenerateContent prompt])%list in
  main gemini (Some key) false (Some u) s
  = match remote_text (gemini prompt) with
    | Return t =>
        Returns tt
          {| history := ts ++ [user_turn u; bot_turn t];
             chat_history := ts ++ [user_turn u; bot_turn t];
             history_file :=
               Some (json.dumps (ts ++ [user_turn u; bot_turn t]));
             events := (shown ++ [ChatMessage "assistant" robot t])%list |}
    | Throw (Error _ msg) =>
        Returns tt
          {| history := ts ++ [user_turn u; bot_turn ("Error: " ++ msg)];
             chat_history := ts ++ [user_turn u];
             history_file :=
               Some (json.dumps
                       (ts ++ [user_turn u; bot_turn ("Error: " ++ msg)]));
             events :=
               (shown ++ [ChatMessage "assistant" robot ("Error: " ++ msg)])%list |}
    | Throw (Exit cls) =>
        Raises (Exit cls)
          {| history := ts ++ [user_turn u];
             chat_history := ts ++ [user_turn u];
             history_file := history_file s;
             events := shown |}
    end.
Proof.
  intros K U P; cbv zeta.
  rewrite (main_loads gemini key false (Some u) ts s K P).
  rewrite setup_ui_plain; cbv zeta.
  rewrite U, exchange_run; cbv zeta.
  cbn [history chat_history history_file events log_all].
  rewrite conversation_of_spec.
  destruct (remote_text _) as [t|[cls msg|cls]];
    unfold set_history_file, set_history, set_chat_history, log, log_all;
    cbn [history chat_history history_file events];
    repeat (progress cbn [app] || rewrite <- app_assoc); reflexivity.
Qed.

(** A run with a key, by what the file holds. *)
Lemma main_by_file gemini (key : string) (button : bool)
    (chat_input : option string) (s : State) :
  truthy key = true ->
  main gemini (Some key) button chat_input s
  = match history_file s with
    | None =>
        setup_ui gemini button chat_input
          {| history := []; chat_history := []; history_file := None;
             events := (events s ++ [Configure key])%list |}
    | Some doc =>
        match json.loads doc with
        | json.Turns ts =>
            setup_ui gemini button chat_input
              {| history := ts; chat_history := ts; history_file := Some doc;
                 events := (events s ++ [Configure key])%list |}
        | json.Invalid msg =>
            Raises (JSONDecodeError msg)
              {| history := history s; chat_history := [];
                 history_file := Some doc;
                 events := (events s ++ [Configure key])%list |}
        | json.Foreign => Unmodelled
        end
    end.
Proof.
  intros K.
  unfold main, ChatInterface_init, ChatBot_init, load_history.
  rewrite K.
  run_monad.
  cbn [history_file set_chat_history log].
  destruct (history_file s) as [doc|] eqn:F; cbv beta iota.
  - cbn [history_file set_chat_history log].
    rewrite F; cbv beta iota.
    unfold json_load.
    destruct (json.loads doc) as [ts| |];
      unfold ret, raise, set_chat_history, set_history, log;
      cbn [history chat_history history_file events];
      now rewrite ?F.
  - unfold set_chat_history, set_history, log.
    cbn [history chat_history history_file events].
    now rewrite F.
Qed.

Ltac flatten_lists := repeat (progress cbn [app] || rewrite <- app_assoc).

(** ** Text of prompts and files *)

Lemma join_snoc (sep x : string) (l : list string) :
  l <> [] -> join sep (l ++ [x]) = join sep l ++ sep ++ x.
Proof.
  destruct l as [|y l]; [congruence|intros _].
  cbn [app join].
  now rewrite fold_left_app.
Qed.

Lemma conversation_of_snoc (h : list Turn) (t : Turn) :
  h <> [] ->
  conversation_of (h ++ [t])
  = conversation_of h ++ String newline (format_turn t).
Proof.
  intros H.
  unfold conversation_of.
  rewrite map_app.
  cbn [map].
  rewrite join_snoc; [reflexivity|].
  destruct h; [congruence|discriminate].
Qed.

Lemma all_chars_append (p : ascii -> bool) (a b : string) :
  all_chars p (a ++ b) = all_chars p a && all_chars p b.
Proof.
  induction a as [|c a IH]; [reflexivity|].
  cbn [append all_chars].
  now rewrite IH, andb_assoc.
Qed.

Lemma escape_char_printable (c : ascii) :
  all_chars printable (json.escape_char c) = true.
Proof.
  destruct c as [[] [] [] [] [] [] [] []]; reflexivity.
Qed.

Lemma encoded_printable (s : string) :
  all_chars printable (json.encode_basestring_ascii s) = true.
Proof.
  unfold json.encode_basestring_ascii.
  cbn [all_chars].
  rewrite all_chars_append.
  change (printable quote) with true.
  cbn [all_chars andb].
  change (printable quote) with true.
  rewrite andb_true_r.
  induction s as [|c s IH]; [reflexivity|].
  cbn [json.escape].
  now rewrite all_chars_append, escape_char_printable, IH.
Qed.

Lemma dump_turn_printable (t : Turn) :
  all_chars printable (json.dump_turn t) = true.
Proof.
  unfold json.dump_turn.
  repeat (rewrite all_chars_append || rewrite encoded_printable).
  reflexivity.
Qed.

Lemma join_printable (l : list string) :
  Forall (fun x => all_chars printable x = true) l ->
  all_chars printable (join ", " l) = true.
Proof.
  induction 1 as [|x l Hx Hl IH]; [reflexivity|].
  destruct l as [|y l]; [exact Hx|].
  rewrite join_cons.
  now rewrite 2 all_chars_append, Hx, IH.
Qed.

Lemma dumps_printable (ts : list Turn) :
  all_chars printable (json.dumps ts) = true.
Proof.
  unfold json.dumps.
  cbn [append all_chars].
  rewrite all_chars_append, join_printable; [reflexivity|].
  apply Forall_forall; intros x Hx.
  apply in_map_iff in Hx as [t [<- _]].
  apply dump_turn_printable.
Qed.

Lemma first_token_blank (doc : string) :
  json.skip_whitespace doc = "" ->
  forall pos lineno colno,
  exists lineno' colno',
    json.first_token doc pos lineno colno
    = (None, (pos + String.length doc, lineno', colno')).
Proof.
  induction doc as [|c doc IH]; intros H pos lineno colno.
  - exists lineno, colno; cbn.
    now rewrite Nat.add_0_r.
  - cbn [json.skip_whitespace] in H.
    cbn [json.first_token String.length].
    destruct (json.is_whitespace c); [|discriminate H].
    rewrite Nat.add_succ_r.
    destruct (ord c =? 10); apply (IH H).
Qed.

Lemma loads_blank (doc : string) :
  json.skip_whitespace doc = "" ->
  exists lineno colno,
    json.loads doc
    = json.Invalid (json.expecting_value (String.length doc) lineno colno).
Proof.
  intros H.
  destruct (first_token_blank doc H 0 1 1) as [l [c E]].
  exists l, c.
  unfold json.loads, json.scan_turns, json.scan_array.
  now rewrite H, E.
Qed.

(** ** Runs without a message *)

(** X1. A run with no click and no message (or an empty one) loads the
    turns the file holds, draws one bubble per turn in stored order, makes
    no remote call and leaves the file as it was. *)
Theorem plain_rerun_shows_history gemini (key : string)
    (chat_input : option string) (ts : list Turn) (s : State) :
  truthy key = true ->
  persisted s = Some ts ->
  chat_input = None \/ chat_input = Some "" ->
  main gemini (Some key) false chat_input s
  = Returns tt
      {| history := ts; chat_history := ts; history_file := history_file s;
         events :=
           (events s
              ++ Configure key :: SetPageConfig :: Title :: map bubble ts)%list |}.
Proof.
  intros K P C.
  rewrite (main_loads gemini key false chat_input ts s K P).
  rewrite setup_ui_plain; cbv zeta.
  unfold log_all; cbn [history chat_history history_file events].
  destruct C as [-> | ->]; cbn [truthy]; flatten_lists; reflexivity.
Qed.

(** An instance: coming back to a saved conversation. *)
Lemma plain_rerun_shows_history_witness :
  main greeter (Some "k") false None returning
  = Returns tt
      {| history := [user_turn "hi"; bot_turn "hello"];
         chat_history := [user_turn "hi"; bot_turn "hello"];
         history_file := history_file returning;
         events :=
           (events returning
              ++ Configure "k" :: SetPageConfig :: Title
                   :: map bubble [user_turn "hi"; bot_turn "hello"])%list |}.
Proof.
  exact (plain_rerun_shows_history greeter "k" None
           [user_turn "hi"; bot_turn "hello"] returning
           eq_refl eq_refl (or_introl eq_refl)).
Defined.

(** X2. With the Clear button pressed a run ends in streamlit's rerun
    with both histories empty and the file gone; it draws no bubble, makes
    no remote call and drops whatever message came with it. *)
Theorem clear_button_ends_run gemini (key : string)
    (chat_input : option string) (ts : list Turn) (s : State) :
  truthy key = true ->
  persisted s = Some ts ->
  main gemini (Some key) true chat_input s
  = Raises RerunException
      {| history := []; chat_history := []; history_file := None;
         events :=
           (events s ++ [Configure key; SetPageConfig; Title])%list |}.
Proof.
  intros K P.
  rewrite (main_loads gemini key true chat_input ts s K P).
  rewrite setup_ui_clear.
  cbn [events].
  flatten_lists; reflexivity.
Qed.

(** An instance: clearing a saved conversation, a message pending. *)
Lemma clear_button_ends_run_witness :
  main greeter (Some "k") true (Some "bye") returning
  = Raises RerunException
      {| history := []; chat_history := []; history_file := None;
         events := [Configure "k"; SetPageConfig; Title] |}.
Proof.
  exact (clear_button_ends_run greeter "k" (Some "bye")
           [user_turn "hi"; bot_turn "hello"] returning eq_refl eq_refl).
Defined.



(** X4. A file that is empty or holds only whitespace makes
    [load_history] raise [JSONDecodeError], pointing at the end of the
    text; the state is left as it was. *)
Theorem load_history_raises_on_blank_file (doc : string) (s : State) :
  history_file s = Some doc ->
  json.skip_whitespace doc = "" ->
  exists lineno colno,
    load_history s
    = Raises (JSONDecodeError
                (json.expecting_value (String.length doc) lineno colno)) s.
Proof.
  intros F B.
  destruct (loads_blank doc B) as [l [c L]].
  exists l, c.
  unfold load_history.
  run_monad.
  rewrite F; cbv beta iota.
  rewrite F; cbv beta iota.
  unfold json_load.
  now rewrite L.
Qed.

(** An instance: a file of two spaces. *)
Lemma load_history_raises_on_blank_file_witness :
  exists lineno colno,
    load_history blank
    = Raises (JSONDecodeError
                (json.expecting_value (String.length "  ") lineno colno)) blank.
Proof.
  exact (load_history_raises_on_blank_file "  " blank eq_refl eq_refl).
Defined.

(** X7. Only the Clear button removes the file: after a run without it,
    however the run ends, a file that was there is still there. *)
Theorem file_survives_without_clear gemini (API_KEY : option string)
    (chat_input : option string) (doc : string) (s s' : State) :
  history_file s = Some doc ->
  final (main gemini API_KEY false chat_input s) = Some s' ->
  exists doc', history_file s' = Some doc'.
Proof.
  intros F.
  assert (N : forall s0, history_file s0 = Some doc ->
                         final (emit (StError missing_key_message) s0) = Some s' ->
                         exists doc', history_file s' = Some doc').
  { intros s0 F0 E; injection E as <-. now exists doc. }
  destruct API_KEY as [key|]; [|now apply N].
  destruct (truthy key) eqn:K.
  - rewrite main_by_file by exact K.
    rewrite F.
    destruct (json.loads doc) as [ts|msg|].
    + rewrite setup_ui_plain; cbv zeta.
      assert (D : forall s1, history_file s1 = Some doc ->
                  final (Returns tt s1) = Some s' ->
                  exists doc', history_file s' = Some doc').
      { intros s1 F1 E; injection E as <-. now exists doc. }
      destruct chat_input as [u|]; [destruct (truthy u)|];
        try (now apply D).
      rewrite exchange_run; cbv zeta.
      destruct (remote_text _) as [t|[cls m|cls]];
        intros E; injection E as <-; eexists; reflexivity.
    + intros E; injection E as <-. now exists doc.
    + discriminate.
  - unfold main; rewrite K.
    now apply N.
Qed.

(** An instance: a plain run on a saved conversation. *)
Lemma file_survives_without_clear_witness :
  exists doc', history_file
                 {| history := [user_turn "hi"; bot_turn "hello"];
                    chat_history := [user_turn "hi"; bot_turn "hello"];
                    history_file := history_file returning;
                    events := [Configure "k"; SetPageConfig; Title;
                               bubble (user_turn "hi");
                               bubble (bot_turn "hello")] |}
               = Some doc'.
Proof.
  exact (file_survives_without_clear greeter (Some "k") None
           (json.dumps [user_turn "hi"; bot_turn "hello"]) returning _
           eq_refl eq_refl).
Defined.

(** ** Runs with a message *)

(** X5. In a run with a message the remote model is called exactly once,
    after the stored turns and the message are on the page, and the prompt
    is built from the turns the file held followed by the new user turn. *)
Theorem run_sends_persisted_history gemini (key u : string)
    (ts : list Turn) (s : State) :
  truthy key = true ->
  truthy u = true ->
  persisted s = Some ts ->
  exists s' rest,
    final (main gemini (Some key) false (Some u) s) = Some s'
    /\ events s'
       = (events s ++ Configure key :: SetPageConfig :: Title :: map bubble ts
            ++ ChatMessage "user" person u
            :: GenerateContent (spec_prompt (ts ++ [user_turn u])) :: rest)%list
    /\ (rest = [] \/ exists answer, rest = [ChatMessage "assistant" robot answer]).
Proof.
  intros K U P.
  rewrite (main_exchange gemini key u ts s K U P); cbv zeta.
  destruct (remote_text _) as [t|[cls msg|cls]].
  - eexists; exists [ChatMessage "assistant" robot t].
    cbn [final events].
    repeat split; [flatten_lists; reflexivity|right; now exists t].
  - eexists; exists [ChatMessage "assistant" robot ("Error: " ++ msg)].
    cbn [final events].
    repeat split; [flatten_lists; reflexivity|right; now eexists].
  - eexists; exists [].
    cbn [final events].
    repeat split; now left.
Qed.

(** An instance: the second message of a saved conversation. *)
Lemma run_sends_persisted_history_witness :
  exists s' rest,
    final (main greeter (Some "k") false (Some "bye") returning) = Some s'
    /\ events s'
       = (events returning ++ Configure "k" :: SetPageConfig :: Title
            :: map bubble [user_turn "hi"; bot_turn "hello"]
            ++ ChatMessage "user" person "bye"
            :: GenerateContent
                 (spec_prompt ([user_turn "hi"; bot_turn "hello"]
                                 ++ [user_turn "bye"])) :: rest)%list
    /\ (rest = [] \/ exists answer, rest = [ChatMessage "assistant" robot answer]).
Proof.
  exact (run_sends_persisted_history greeter "k" "bye"
           [user_turn "hi"; bot_turn "hello"] returning
           eq_refl eq_refl eq_refl).
Defined.

(** X12. When the remote call is cut short by an exception outside
    [Exception], the run ends with it: the user turn is in both histories
    in memory, nothing is written, and the file still holds the turns from
    before, so the message is lost to the next run. *)
Theorem interrupted_run_loses_message gemini (key u cls : string)
    (ts : list Turn) (s : State) :
  truthy key = true ->
  truthy u = true ->
  persisted s = Some ts ->
  remote_text (gemini (spec_prompt (ts ++ [user_turn u]))) = Throw (Exit cls) ->
  exists s',
    main gemini (Some key) false (Some u) s = Raises (Exit cls) s'
    /\ history s' = (ts ++ [user_turn u])%list
    /\ chat_history s' = (ts ++ [user_turn u])%list
    /\ history_file s' = history_file s
    /\ persisted s' = Some ts.
Proof.
  intros K U P R.
  rewrite (main_exchange gemini key u ts s K U P); cbv zeta.
  rewrite R.
  eexists; split; [reflexivity|].
  repeat split.
  exact P.
Qed.

(** An instance: a keyboard interrupt during the second message. *)
Lemma interrupted_run_loses_message_witness :
  exists s',
    main interrupted (Some "k") false (Some "bye") returning
    = Raises (Exit "KeyboardInterrupt") s'
    /\ history s' = ([user_turn "hi"; bot_turn "hello"] ++ [user_turn "bye"])%list
    /\ chat_history s'
       = ([user_turn "hi"; bot_turn "hello"] ++ [user_turn "bye"])%list
    /\ history_file s' = history_file returning
    /\ persisted s' = Some [user_turn "hi"; bot_turn "hello"].
Proof.
  exact (interrupted_run_loses_message interrupted "k" "bye" "KeyboardInterrupt"
           [user_turn "hi"; bot_turn "hello"] returning
           eq_refl eq_refl eq_refl eq_refl).
Defined.

(** ** From one run to the next *)

(** A run with a key that returns had a file it could load, and no Clear. *)
Lemma main_returns_inv gemini (key : string) (button : bool)
    (chat_input : option string) (s s' : State) :
  truthy key = true ->
  main gemini (Some key) button chat_input s = Returns tt s' ->
  button = false /\ exists ts, persisted s = Some ts.
Proof.
  intros K.
  rewrite main_by_file by exact K.
  unfold persisted.
  destruct (history_file s) as [doc|].
  - destruct (json.loads doc) as [ts|msg|]; try discriminate.
    destruct button; [now rewrite setup_ui_clear|].
    intros _; split; [reflexivity|now exists ts].
  - destruct button; [now rewrite setup_ui_clear|].
    intros _; split; [reflexivity|now exists []].
Qed.

(** What a run that returns leaves in the file is its session history. *)
Lemma main_returns_persisted gemini (key : string) (button : bool)
    (chat_input : option string) (s s' : State) :
  truthy key = true ->
  main gemini (Some key) button chat_input s = Returns tt s' ->
  persisted s' = Some (history s').
Proof.
  intros K E.
  destruct (main_returns_inv gemini key button chat_input s s' K E)
    as [-> [ts P]].
  destruct chat_input as [u|]; [destruct (truthy u) eqn:U|].
  - rewrite (main_exchange gemini key u ts s K U P) in E; cbv zeta in E.
    destruct (remote_text _) as [t|[cls msg|cls]]; try discriminate E;
      injection E as <-;
      unfold persisted; cbn [history_file history];
      now rewrite loads_dumps.
  - destruct u; [|discriminate U].
    rewrite (main_loads gemini key false (Some "") ts s K P) in E.
    rewrite setup_ui_plain in E; cbv zeta in E; cbn [truthy] in E.
    injection E as <-.
    exact P.
  - rewrite (main_loads gemini key false None ts s K P) in E.
    rewrite setup_ui_plain in E; cbv zeta in E.
    injection E as <-.
    exact P.
Qed.

(** X6. After every run that returns, the file and the session agree: the
    file decodes to exactly the session history (or there is no file and
    the history is empty). *)
Theorem completed_run_matches_file gemini (key : string) (button : bool)
    (chat_input : option string) (s s' : State) :
  truthy key = true ->
  main gemini (Some key) button chat_input s = Returns tt s' ->
  match history_file s' with
  | Some doc => json.loads doc = json.Turns (history s')
  | None => history s' = []
  end.
Proof.
  intros K E.
  pose proof (main_returns_persisted gemini key button chat_input s s' K E) as P.
  unfold persisted in P.
  destruct (history_file s') as [doc|].
  - destruct (json.loads doc); congruence.
  - congruence.
Qed.

(** An instance: a first exchange that fails. *)
Lemma completed_run_matches_file_witness :
  json.loads (json.dumps [user_turn "hi";
                          bot_turn ("Error: " ++ "429 quota exceeded")])
  = json.Turns [user_turn "hi"; bot_turn ("Error: " ++ "429 quota exceeded")].
Proof.
  exact (completed_run_matches_file exhausted "k" false (Some "hi") fresh _
           eq_refl eq_refl).
Defined.

(** X15. The next run resumes where a completed run stopped: whatever the
    run did, a following run with no click and no message has its session
    history and its chatbot history equal to the history the first run
    ended with, and draws these turns. *)
Theorem next_run_resumes gemini gemini' (key key' : string) (button : bool)
    (chat_input : option string) (s s1 : State) :
  truthy key = true ->
  truthy key' = true ->
  main gemini (Some key) button chat_input s = Returns tt s1 ->
  main gemini' (Some key') false None s1
  = Returns tt
      {| history := history s1; chat_history := history s1;
         history_file := history_file s1;
         events :=
           (events s1 ++ Configure key' :: SetPageConfig :: Title
              :: map bubble (history s1))%list |}.
Proof.
  intros K K' E.
  pose proof (main_returns_persisted gemini key button chat_input s s1 K E) as P.
  rewrite (main_loads gemini' key' false None (history s1) s1 K' P).
  rewrite setup_ui_plain; cbv zeta.
  unfold log_all; cbn [history chat_history history_file events].
  flatten_lists; reflexivity.
Qed.

(** An instance: a reload after a first exchange that failed. *)
Lemma next_run_resumes_witness :
  exists s1,
    main exhausted (Some "k") false (Some "hi") fresh = Returns tt s1
    /\ main greeter (Some "k") false None s1
       = Returns tt
           {| history := history s1; chat_history := history s1;
              history_file := history_file s1;
              events :=
                (events s1 ++ Configure "k" :: SetPageConfig :: Title
                   :: map bubble (history s1))%list |}.
Proof.
  eexists; split; [reflexivity|].
  exact (next_run_resumes exhausted greeter "k" "k" false (Some "hi") fresh _
           eq_refl eq_refl eq_refl).
Defined.

(** X17. An error answer becomes context: after an exchange whose remote
    call failed, the next run with a message sends the model a prompt in
    which the ["Error: ..."] text stands as a bot turn. *)
Theorem error_answer_becomes_context gemini gemini' (key key' u u' cls msg : string)
    (ts : list Turn) (s : State) :
  truthy key = true ->
  truthy key' = true ->
  truthy u = true ->
  truthy u' = true ->
  persisted s = Some ts ->
  remote_text (gemini (spec_prompt (ts ++ [user_turn u])))
  = Throw (Error cls msg) ->
  exists s1,
    main gemini (Some key) false (Some u) s = Returns tt s1
    /\ exists s2 rest,
         final (main gemini' (Some key') false (Some u') s1) = Some s2
         /\ events s2
            = (events s1 ++ Configure key' :: SetPageConfig :: Title
                 :: map bubble (history s1)
                 ++ ChatMessage "user" person u'
                 :: GenerateContent
                      (spec_prompt
                         (ts ++ [user_turn u; bot_turn ("Error: " ++ msg);
                                 user_turn u']))
                 :: rest)%list.
Proof.
  intros K K' U U' P R.
  pose proof (main_exchange gemini key u ts s K U P) as E; cbv zeta in E.
  rewrite R in E.
  eexists; split; [exact E|].
  assert (P1 : persisted
                 {| history := ts ++ [user_turn u; bot_turn ("Error: " ++ msg)];
                    chat_history := ts ++ [user_turn u];
                    history_file :=
                      Some (json.dumps
                              (ts ++ [user_turn u;
                                      bot_turn ("Error: " ++ msg)]));
                    events :=
                      (events s ++ Configure key :: SetPageConfig :: Title
                         :: map bubble ts
                         ++ [ChatMessage "user" person u;
                             GenerateContent (spec_prompt (ts ++ [user_turn u]))])
                      ++ [ChatMessage "assistant" robot ("Error: " ++ msg)] |}
               = Some (ts ++ [user_turn u; bot_turn ("Error: " ++ msg)])%list).
  { unfold persisted; cbn [history_file]. now rewrite loads_dumps. }
  rewrite (main_exchange gemini' key' u' _ _ K' U' P1); cbv zeta.
  cbn [history events].
  replace ((ts ++ [user_turn u; bot_turn ("Error: " ++ msg)]) ++ [user_turn u'])%list
    with (ts ++ [user_turn u; bot_turn ("Error: " ++ msg); user_turn u'])%list
    by now rewrite <- app_assoc.
  destruct (remote_text (gemini' _)) as [t|[cls' msg'|cls']].
  - eexists; exists [ChatMessage "assistant" robot t].
    cbn [final events]; split; [reflexivity|].
    flatten_lists; reflexivity.
  - eexists; exists [ChatMessage "assistant" robot ("Error: " ++ msg')].
    cbn [final events]; split; [reflexivity|].
    flatten_lists; reflexivity.
  - eexists; exists [].
    cbn [final events]; split; reflexivity.
Qed.

(** An instance: the quota is back for the second message. *)
Lemma error_answer_becomes_context_witness :
  exists s1,
    main exhausted (Some "k") false (Some "hi") fresh = Returns tt s1
    /\ exists s2 rest,
         final (main greeter (Some "k") false (Some "bye") s1) = Some s2
         /\ events s2
            = (events s1 ++ Configure "k" :: SetPageConfig :: Title
                 :: map bubble (history s1)
                 ++ ChatMessage "user" person "bye"
                 :: GenerateContent
                      (spec_prompt
                         ([] ++ [user_turn "hi";
                                 bot_turn ("Error: " ++ "429 quota exceeded");
                                 user_turn "bye"]))
                 :: rest)%list.
Proof.
  exact (error_answer_becomes_context exhausted greeter "k" "k" "hi" "bye"
           "ResourceExhausted" "429 quota exceeded" [] fresh
           eq_refl eq_refl eq_refl eq_refl eq_refl eq_refl).
Defined.

(** X16. The answer of an exchange is drawn under the name ["assistant"]
    in the run that produced it, and under its stored role ["bot"] in the
    run that follows. *)
Theorem answer_bubble_changes_name gemini gemini' (key key' u t : string)
    (ts : list Turn) (s : State) :
  truthy key = true ->
  truthy key' = true ->
  truthy u = true ->
  persisted s = Some ts ->
  remote_text (gemini (spec_prompt (ts ++ [user_turn u]))) = Return t ->
  exists s1 s2,
    main gemini (Some key) false (Some u) s = Returns tt s1
    /\ last (events s1) Title = ChatMessage "assistant" robot t
    /\ main gemini' (Some key') false None s1 = Returns tt s2
    /\ last (events s2) Title = ChatMessage "bot" robot t.
Proof.
  intros K K' U P R.
  pose proof (main_exchange gemini key u ts s K U P) as E; cbv zeta in E.
  rewrite R in E.
  eexists; eexists; split; [exact E|].
  split; [cbn [events]; apply last_last|].
  split.
  - rewrite (main_loads gemini' key' false None
               (ts ++ [user_turn u; bot_turn t])).
    + rewrite setup_ui_plain; cbv zeta.
      reflexivity.
    + exact K'.
    + unfold persisted; cbn [history_file]. now rewrite loads_dumps.
  - unfold log_all; cbn [events history].
    rewrite map_app; cbn [map].
    change (bubble (bot_turn t)) with (ChatMessage "bot" robot t).
    replace (map bubble ts ++ [bubble (user_turn u); ChatMessage "bot" robot t])%list
      with ((map bubble ts ++ [bubble (user_turn u)])
              ++ [ChatMessage "bot" robot t])%list
      by now rewrite <- app_assoc.
    change (SetPageConfig :: Title
              :: (map bubble ts ++ [bubble (user_turn u)])
                   ++ [ChatMessage "bot" robot t])%list
      with ((SetPageConfig :: Title :: map bubble ts ++ [bubble (user_turn u)])
              ++ [ChatMessage "bot" robot t])%list.
    rewrite app_assoc.
    apply last_last.
Qed.

(** An instance: a first exchange and a reload. *)
Lemma answer_bubble_changes_name_witness :
  exists s1 s2,
    main greeter (Some "k") false (Some "hi") fresh = Returns tt s1
    /\ last (events s1) Title = ChatMessage "assistant" robot "hello"
    /\ main greeter (Some "k") false None s1 = Returns tt s2
    /\ last (events s2) Title = ChatMessage "bot" robot "hello".
Proof.
  exact (answer_bubble_changes_name greeter greeter "k" "k" "hi" "hello"
           [] fresh eq_refl eq_refl eq_refl eq_refl eq_refl).
Defined.

(** X13. A run with a key does not depend on what earlier runs left in
    memory: with the same file, inputs and remote model, it ends the same
    way whatever the session history and the chatbot history held. *)
Theorem run_ignores_memory gemini (key : string) (button : bool)
    (chat_input : option string) (h1 h2 ts : list Turn) (s : State) :
  truthy key = true ->
  persisted s = Some ts ->
  main gemini (Some key) button chat_input (set_history h1 (set_chat_history h2 s))
  = main gemini (Some key) button chat_input s.
Proof.
  intros K P.
  rewrite (main_loads gemini key button chat_input ts s K P).
  now rewrite (main_loads gemini key button chat_input ts
                 (set_history h1 (set_chat_history h2 s)) K P).
Qed.

(** An instance: stale histories in memory. *)
Lemma run_ignores_memory_witness :
  main greeter (Some "k") false (Some "bye")
    (set_history [bot_turn "stale"] (set_chat_history [user_turn "old"] returning))
  = main greeter (Some "k") false (Some "bye") returning.
Proof.
  exact (run_ignores_memory greeter "k" false (Some "bye")
           [bot_turn "stale"] [user_turn "old"]
           [user_turn "hi"; bot_turn "hello"] returning eq_refl eq_refl).
Defined.

(** ** The chatbot on its own *)

(** X8. Each prompt extends the one before: when [get_response] answered
    [u1] with [t1], a second call on the same chatbot sends the first
    prompt followed by the lines [bot: t1] and [user: u2]. *)
Theorem second_prompt_extends_first gemini (u1 u2 t1 : string) (s : State) :
  let first := conversation_of (chat_history s ++ [user_turn u1]) in
  remote_text (gemini first) = Return t1 ->
  exists s1 s2,
    get_response gemini u1 s = Returns t1 s1
    /\ final (get_response gemini u2 s1) = Some s2
    /\ events s2
       = (events s
            ++ [GenerateContent first;
                GenerateContent
                  (first ++ String newline ("bot: " ++ t1)
                         ++ String newline ("user: " ++ u2))])%list.
Proof.
  cbv zeta; intros R.
  pose proof (get_response_run gemini u1 s) as E1; cbv zeta in E1.
  rewrite R in E1.
  match type of E1 with _ = Returns _ ?st => set (s1 := st) in * end.
  pose proof (get_response_run gemini u2 s1) as E2; cbv zeta in E2.
  assert (N : forall (l : list Turn) x, (l ++ [x])%list <> [])
    by (intros l x; destruct l; discriminate).
  assert (C : conversation_of (chat_history s1 ++ [user_turn u2])
              = conversation_of (chat_history s ++ [user_turn u1])
                  ++ String newline ("bot: " ++ t1)
                  ++ String newline ("user: " ++ u2)).
  { subst s1; cbn [chat_history set_chat_history log].
    rewrite (conversation_of_snoc _ (user_turn u2)) by apply N.
    rewrite (conversation_of_snoc _ (bot_turn t1)) by apply N.
    change (format_turn (bot_turn t1)) with ("bot: " ++ t1).
    change (format_turn (user_turn u2)) with ("user: " ++ u2).
    now rewrite append_assoc. }
  rewrite C in E2.
  assert (V : events s1
              = (events s
                   ++ [GenerateContent
                         (conversation_of (chat_history s ++ [user_turn u1]))])%list)
    by reflexivity.
  clearbody s1; clear R.
  exists s1.
  destruct (remote_text _) as [t|[cls msg|cls]];
    (eexists; split; [exact E1|]; rewrite E2;
     cbn [final events set_chat_history log];
     split; [reflexivity|];
     cbn [events set_chat_history log];
     rewrite V; flatten_lists; reflexivity).
Qed.

(** An instance: two questions to the same chatbot. *)
Lemma second_prompt_extends_first_witness :
  exists s1 s2,
    get_response greeter "hi" fresh = Returns "hello" s1
    /\ final (get_response greeter "bye" s1) = Some s2
    /\ events s2
       = (events fresh
            ++ [GenerateContent
                  (conversation_of (chat_history fresh ++ [user_turn "hi"]));
                GenerateContent
                  (conversation_of (chat_history fresh ++ [user_turn "hi"])
                     ++ String newline ("bot: " ++ "hello")
                     ++ String newline ("user: " ++ "bye"))])%list.
Proof.
  exact (second_prompt_extends_first greeter "hi" "bye" "hello" fresh eq_refl).
Defined.

(** X9. The prompt does not escape the text of a turn: a user message
    that ends in a newline and [bot: t] gives the same prompt as the user
    message without that ending followed by a bot turn [t]. *)
Theorem prompt_does_not_escape_turn_text (h : list Turn) (u t : string) :
  conversation_of (h ++ [user_turn (u ++ String newline ("bot: " ++ t))])
  = conversation_of (h ++ [user_turn u; bot_turn t]).
Proof.
  assert (N : (h ++ [user_turn u])%list <> [])
    by (destruct h; discriminate).
  change (h ++ [user_turn u; bot_turn t])%list
    with (h ++ [user_turn u] ++ [bot_turn t])%list.
  rewrite app_assoc.
  rewrite (conversation_of_snoc _ (bot_turn t)) by exact N.
  change (format_turn (bot_turn t)) with ("bot: " ++ t).
  destruct h as [|m h].
  - unfold conversation_of, format_turn; cbn.
    now rewrite ?append_assoc.
  - assert (M : (m :: h) <> []) by discriminate.
    rewrite 2 conversation_of_snoc by exact M.
    unfold format_turn; cbn [role content user_turn].
    rewrite ?append_assoc.
    cbn [append].
    now rewrite ?append_assoc.
Qed.

(** X10. [get_history] after [get_response] returns the turns held before,
    then the user turn, then the answer turn when the remote call
    succeeded and nothing more when it failed. *)
Theorem get_history_after_get_response gemini (u : string) (s : State) :
  match remote_text (gemini (conversation_of (chat_history s ++ [user_turn u])))
  with
  | Return t =>
      exists s',
        bind (get_response gemini u) (fun _ => get_history) s
        = Returns (chat_history s ++ [user_turn u; bot_turn t])%list s'
  | Throw (Error _ _) =>
      exists s',
        bind (get_response gemini u) (fun _ => get_history) s
        = Returns (chat_history s ++ [user_turn u])%list s'
  | Throw (Exit cls) =>
      exists s',
        bind (get_response gemini u) (fun _ => get_history) s
        = Raises (Exit cls) s'
  end.
Proof.
  unfold bind.
  rewrite get_response_run; cbv zeta.
  destruct (remote_text _) as [t|[cls msg|cls]];
    unfold get_history, gets;
    cbn [chat_history set_chat_history log];
    eexists; rewrite <- ?app_assoc; reflexivity.
Qed.

(** ** The file *)

(** X11. The file [save_history] writes holds printable ASCII only (space
    to tilde), whatever characters the turns contain. *)
Theorem saved_file_is_printable_ascii (s : State) :
  exists s' doc,
    save_history s = Returns tt s'
    /\ history_file s' = Some doc
    /\ all_chars printable doc = true.
Proof.
  eexists; eexists.
  split; [reflexivity|].
  split; [reflexivity|].
  apply dumps_printable.
Qed.

(** [load_history] as one equation, by the state of the file. *)
Lemma load_history_by_file (s : State) :
  load_history s
  = match history_file s with
    | None => Returns tt (set_history [] s)
    | Some doc =>
        match json.loads doc with
        | json.Turns ts => Returns tt (set_chat_history ts (set_history ts s))
        | json.Invalid msg => Raises (JSONDecodeError msg) s
        | json.Foreign => Unmodelled
        end
    end.
Proof.
  unfold load_history.
  run_monad.
  destruct (history_file s) as [doc|] eqn:F; cbv beta iota.
  - rewrite F; cbv beta iota.
    unfold json_load.
    destruct (json.loads doc); reflexivity.
  - reflexivity.
Qed.

(** X14. [load_history] only reads: when it returns, the file and the
    page are as before, and loading again changes nothing. *)
Theorem load_history_only_reads (s s1 : State) :
  load_history s = Returns tt s1 ->
  history_file s1 = history_file s
  /\ events s1 = events s
  /\ load_history s1 = Returns tt s1.
Proof.
  rewrite (load_history_by_file s), (load_history_by_file s1).
  destruct (history_file s) as [doc|] eqn:F.
  - destruct (json.loads doc) as [ts|msg|] eqn:L; intros E;
      try discriminate E.
    injection E as <-.
    cbn [history_file events set_history set_chat_history].
    rewrite F, L.
    repeat split.
  - intros E; injection E as <-.
    cbn [history_file events set_history].
    rewrite F.
    repeat split.
Qed.

(** An instance: loading a saved conversation. *)
Lemma load_history_only_reads_witness :
  history_file
    (set_chat_history [user_turn "hi"; bot_turn "hello"]
       (set_history [user_turn "hi"; bot_turn "hello"] returning))
  = history_file returning
  /\ events
       (set_chat_history [user_turn "hi"; bot_turn "hello"]
          (set_history [user_turn "hi"; bot_turn "hello"] returning))
     = events returning
  /\ load_history
       (set_chat_history [user_turn "hi"; bot_turn "hello"]
          (set_history [user_turn "hi"; bot_turn "hello"] returning))
     = Returns tt
         (set_chat_history [user_turn "hi"; bot_turn "hello"]
            (set_history [user_turn "hi"; bot_turn "hello"] returning)).
Proof.
  exact (load_history_only_reads returning _ eq_refl).
Defined.
